(** * Guard: precondition checks of [guard.py]

  A shallow embedding of the [Guard] class of [guard.py] and the proofs of
  its specification.  Python values, the [isinstance] relation, truth-value
  testing and the two comparisons the guards perform are modelled in
  [Module Py]; the read-only filesystem queries of [os.path] in [Module OS];
  the nine static methods, one definition each, in [Module Guard]. *)

From Stdlib Require Import ZArith String Ascii List Bool Lia.
From Stdlib Require Import Floats.SpecFloat.
From Stdlib Require Import Init.Byte.
From Stdlib Require Import DecimalString.
Import ListNotations.

Set Warnings "-register-all".
Local Open Scope string_scope.
Local Open Scope Z_scope.

(* ------------------------------------------------------------------ *)
(** ** Substrings

  Messages are compared by "contains": the spec speaks of a message that
  names an argument or a type. *)

Module Text.

(** [within needle hay]: [needle] occurs in [hay] as a contiguous run. *)
Definition within (needle hay : string) : Prop :=
  exists pre post, hay = pre ++ needle ++ post.

(** The executable counterpart, scanning [hay] from the left. *)
Fixpoint withinb (needle hay : string) : bool :=
  String.prefix needle hay
  || match hay with
     | EmptyString => false
     | String _ rest => withinb needle rest
     end.

(** Does the text hold a NUL character?  [os.stat] refuses such paths. *)
Fixpoint has_nul (s : string) : bool :=
  match s with
  | EmptyString => false
  | String c rest => Ascii.eqb c Ascii.zero || has_nul rest
  end.

End Text.

(* ------------------------------------------------------------------ *)
(** ** Python values *)

Module Py.

(** The values a guard can be handed: the built-in scalars and containers,
    a [pathlib] path as the representative [os.PathLike] object, and an
    instance of a class of the caller's that has [__getitem__] as its only
    special method,

      class Indexed:
          def __init__(self, items): self._items = items
          def __getitem__(self, i): return self._items[i]

    over which Python iterates through the sequence protocol.  A [float] is
    an IEEE-754 datum ([spec_float]: signed zero, infinity, NaN or sign,
    mantissa, exponent). *)
Inductive pyval : Type :=
| VNone
| VBool (b : bool)
| VInt (n : Z)
| VFloat (x : spec_float)
| VStr (s : string)
| VBytes (b : list byte)
| VList (items : list pyval)
| VTuple (items : list pyval)
| VDict (entries : list (pyval * pyval))
| VSet (elems : list pyval)
| VPath (s : string)    (* pathlib.PosixPath; [s] is [os.fspath(p)] *)
| VIndexed (items : list pyval).   (* Indexed(items) *)

(** Type descriptors: the classes of the values above, [object], and the
    abstract base classes the module imports ([os.PathLike],
    [collections.abc.Iterable], [numbers.Number]). *)
Inductive pytype : Type :=
| T_object | T_NoneType | T_bool | T_int | T_float | T_str | T_bytes
| T_list | T_tuple | T_dict | T_set | T_PosixPath
| T_PathLike | T_Iterable | T_Number | T_Indexed.

Scheme Equality for pytype.

(** [T.__name__] *)
Definition type_name (T : pytype) : string :=
  match T with
  | T_object => "object"
  | T_NoneType => "NoneType"
  | T_bool => "bool"
  | T_int => "int"
  | T_float => "float"
  | T_str => "str"
  | T_bytes => "bytes"
  | T_list => "list"
  | T_tuple => "tuple"
  | T_dict => "dict"
  | T_set => "set"
  | T_PosixPath => "PosixPath"
  | T_PathLike => "PathLike"
  | T_Iterable => "Iterable"
  | T_Number => "Number"
  | T_Indexed => "Indexed"
  end.

(** [type(v)] *)
Definition type_of (v : pyval) : pytype :=
  match v with
  | VNone => T_NoneType
  | VBool _ => T_bool
  | VInt _ => T_int
  | VFloat _ => T_float
  | VStr _ => T_str
  | VBytes _ => T_bytes
  | VList _ => T_list
  | VTuple _ => T_tuple
  | VDict _ => T_dict
  | VSet _ => T_set
  | VPath _ => T_PosixPath
  | VIndexed _ => T_Indexed
  end.

(** The proper supertypes of a class: its bases ([bool] derives from [int])
    and the abstract base classes that accept it, either by registration
    ([Number]) or through a subclass hook ([Iterable] looks for [__iter__],
    [PathLike] for [__fspath__]).  [Indexed] has neither method and is
    accepted by none. *)
Definition supertypes (T : pytype) : list pytype :=
  match T with
  | T_object => []
  | T_bool => [T_int; T_Number; T_object]
  | T_int | T_float => [T_Number; T_object]
  | T_str | T_bytes | T_list | T_tuple | T_dict | T_set =>
      [T_Iterable; T_object]
  | T_PosixPath => [T_PathLike; T_object]
  | T_NoneType | T_PathLike | T_Iterable | T_Number | T_Indexed => [T_object]
  end.

Definition issubclass (C T : pytype) : bool :=
  pytype_beq C T || existsb (pytype_beq T) (supertypes C).

(** [isinstance(v, T)] *)
Definition isinstance (v : pyval) (T : pytype) : bool :=
  issubclass (type_of v) T.

(** [isinstance(v, (T1, ..., Tn))] *)
Definition isinstance_any (v : pyval) (Ts : list pytype) : bool :=
  existsb (isinstance v) Ts.

(** [v is None] *)
Definition is_none (v : pyval) : bool :=
  match v with VNone => true | _ => false end.

(** *** Numbers *)

Definition float_is_zero (x : spec_float) : bool :=
  match x with S754_zero _ => true | _ => false end.

(** The signed mantissa of a finite float. *)
Definition signed (s : bool) (m : positive) : Z :=
  if s then Z.neg m else Z.pos m.

(** [x == n] for a float and an int: Python compares the two exactly,
    [signed s m * 2^e] against [n], without rounding [n] to a float. *)
Definition float_eq_int (x : spec_float) (n : Z) : bool :=
  match x with
  | S754_zero _ => n =? 0
  | S754_infinity _ | S754_nan => false
  | S754_finite s m e =>
      if 0 <=? e then signed s m * 2 ^ e =? n
      else signed s m =? n * 2 ^ (- e)
  end.

(** [x < n] for a float and an int, exact as well; NaN is below nothing. *)
Definition float_lt_int (x : spec_float) (n : Z) : bool :=
  match x with
  | S754_zero _ => 0 <? n
  | S754_infinity s => s
  | S754_nan => false
  | S754_finite s m e =>
      if 0 <=? e then signed s m * 2 ^ e <? n
      else signed s m <? n * 2 ^ (- e)
  end.

(** Truth-value testing, [bool(v)]: [None], [False], a numeric zero and an
    empty text, byte string or container are false; everything else is
    true, a path object and an [Indexed] object (which has neither
    [__bool__] nor [__len__]) included. *)
Definition truthy (v : pyval) : bool :=
  match v with
  | VNone => false
  | VBool b => b
  | VInt n => negb (n =? 0)
  | VFloat x => negb (float_is_zero x)
  | VStr s => negb (String.eqb s "")
  | VBytes b => match b with [] => false | _ => true end
  | VList l | VTuple l | VSet l => match l with [] => false | _ => true end
  | VDict d => match d with [] => false | _ => true end
  | VPath _ => true
  | VIndexed _ => true
  end.

(** *** Iteration *)

(** The characters of a text, each a text of length one. *)
Fixpoint characters (s : string) : list pyval :=
  match s with
  | EmptyString => []
  | String c rest => VStr (String c "") :: characters rest
  end.

(** What a [for] loop over [v] goes through, or [None] when [iter(v)] raises
    ("object is not iterable").  [iter] asks the type for [__iter__] and,
    failing that, falls back on [__getitem__], calling it with 0, 1, 2, ...
    until it raises [IndexError]: this is how an [Indexed] object iterates.
    A [dict] yields its keys, a [bytes] its bytes as integers. *)
Definition iterate (v : pyval) : option (list pyval) :=
  match v with
  | VStr s => Some (characters s)
  | VBytes b => Some (map (fun x => VInt (Z.of_N (Byte.to_N x))) b)
  | VList l | VTuple l | VSet l | VIndexed l => Some l
  | VDict d => Some (map fst d)
  | VNone | VBool _ | VInt _ | VFloat _ | VPath _ => None
  end.

(** *** Exceptions and results *)

Inductive exc_class : Type :=
| ValueError | TypeError | FileNotFoundError | OSError | OverflowError.

Scheme Equality for exc_class.

Record exception : Type := Exc { exc_type : exc_class; exc_message : string }.

(** A call either returns or raises. *)
Inductive result (A : Type) : Type :=
| Return (a : A)
| Raise (e : exception).
Arguments Return {A} a.
Arguments Raise {A} e.

Definition raise {A : Type} (c : exc_class) (msg : string) : result A :=
  Raise (Exc c msg).

(** [isinstance(e, C)] on exceptions: [FileNotFoundError] derives from
    [OSError]. *)
Definition exc_issubclass (c C : exc_class) : bool :=
  exc_class_beq c C
  || match c, C with FileNotFoundError, OSError => true | _, _ => false end.

(** *** Comparisons against a literal

    The guards compare their argument with the literals [0] and [""] only.
    For the built-in types a comparison across unrelated types is not
    implemented by either side: [==] then answers [False] and [<] raises
    [TypeError]. *)

(** [v == n], [n] an int literal. *)
Definition eq_int (v : pyval) (n : Z) : bool :=
  match v with
  | VBool b => Z.b2z b =? n
  | VInt m => m =? n
  | VFloat x => float_eq_int x n
  | _ => false
  end.

(** [v == s], [s] a str literal. *)
Definition eq_str (v : pyval) (s : string) : bool :=
  match v with
  | VStr t => String.eqb t s
  | _ => false
  end.

(** [v < n], [n] an int literal. *)
Definition lt_int (v : pyval) (n : Z) : result bool :=
  match v with
  | VBool b => Return (Z.b2z b <? n)
  | VInt m => Return (m <? n)
  | VFloat x => Return (float_lt_int x n)
  | _ => raise TypeError
           ("'<' not supported between instances of '"
            ++ type_name (type_of v) ++ "' and 'int'")
  end.

End Py.

Import Py.

(* ------------------------------------------------------------------ *)
(** ** The interpreter's surroundings *)

Module OS.

(** What a path can resolve to (symbolic links followed): a regular file, a
    directory, or something else (a device, a socket, a pipe). *)
Inductive file_kind : Type := RegularFile | Directory | Special.

(** A path as the system call receives it, text or bytes. *)
Inductive os_path : Type :=
| StrPath (s : string)
| BytesPath (b : list byte).

(** The surroundings of a call: the filesystem as it answers [stat] on a path
    or on an open file descriptor ([None]: the call fails with an [OSError]),
    and the built-in [repr], which the guards reach only through message
    formatting and which is left to the interpreter. *)
Record runtime : Type := {
  stat_path : os_path -> option file_kind;
  stat_fd : Z -> option file_kind;
  repr : pyval -> string
}.

(** [str(v)]: a [str] is itself, a path object gives its path, and the other
    built-in types fall back on [repr]. *)
Definition str (rt : runtime) (v : pyval) : string :=
  match v with
  | VStr s => s
  | VPath s => s
  | _ => repr rt v
  end.

Definition bytes_have_nul (b : list byte) : bool :=
  existsb (Byte.eqb x00) b.

(** A file descriptor has to fit a C [int]. *)
Definition fd_in_range (n : Z) : bool :=
  (- 2 ^ 31 <=? n) && (n <=? 2 ^ 31 - 1).

Definition stat_at (rt : runtime) (p : os_path) : result file_kind :=
  match stat_path rt p with
  | Some k => Return k
  | None => raise FileNotFoundError "[Errno 2] No such file or directory"
  end.

(** [os.stat(v)].  The argument is converted first: a [str], a [bytes] or an
    [os.PathLike] object is a path (with an embedded NUL it is a
    [ValueError]); an integer, [bool] included, is an open file descriptor
    (outside the range of a C [int] it is an [OverflowError]); anything else
    is a [TypeError]. *)
Definition os_stat (rt : runtime) (v : pyval) : result file_kind :=
  let as_fd (n : Z) : result file_kind :=
    if fd_in_range n then
      match stat_fd rt n with
      | Some k => Return k
      | None => raise OSError "[Errno 9] Bad file descriptor"
      end
    else raise OverflowError
           (if n <? 0 then "fd is less than minimum"
            else "fd is greater than maximum") in
  match v with
  | VStr s | VPath s =>
      if Text.has_nul s then raise ValueError "embedded null character in path"
      else stat_at rt (StrPath s)
  | VBytes b =>
      if bytes_have_nul b then raise ValueError "embedded null byte"
      else stat_at rt (BytesPath b)
  | VInt n => as_fd n
  | VBool b => as_fd (Z.b2z b)
  | _ => raise TypeError
           ("stat: path should be string, bytes, os.PathLike or integer, not "
            ++ type_name (type_of v))
  end.

(** The [os.path] predicates run [os.stat] under
    [except (OSError, ValueError): return False]; any other exception
    leaves them. *)
Definition swallowed (e : exception) : bool :=
  exc_issubclass (exc_type e) OSError || exc_issubclass (exc_type e) ValueError.

Definition stat_test (test : file_kind -> bool) (rt : runtime) (v : pyval)
  : result bool :=
  match os_stat rt v with
  | Return k => Return (test k)
  | Raise e => if swallowed e then Return false else Raise e
  end.

(** [os.path.exists(v)] *)
Definition path_exists : runtime -> pyval -> result bool :=
  stat_test (fun _ => true).

(** [os.path.isdir(v)] *)
Definition path_isdir : runtime -> pyval -> result bool :=
  stat_test (fun k => match k with Directory => true | _ => false end).

(** The types [os.stat] takes as its argument. *)
Definition stat_takes (v : pyval) : bool :=
  isinstance_any v [T_str; T_bytes; T_PathLike; T_int].

(** What a value resolves to when used as a path: the answer of the
    filesystem for a well-formed text, bytes or path-object path. *)
Definition resolves (rt : runtime) (v : pyval) : option file_kind :=
  match v with
  | VStr s | VPath s =>
      if Text.has_nul s then None else stat_path rt (StrPath s)
  | VBytes b =>
      if bytes_have_nul b then None else stat_path rt (BytesPath b)
  | _ => None
  end.

End OS.

Import OS.

(* ------------------------------------------------------------------ *)
(** ** The guards *)

Module Guard.

(** [Guard.against_none] *)
Definition against_none (argument : pyval) (argument_name : string)
  : result pyval :=
  if is_none argument then
    raise ValueError ("Argument '" ++ argument_name ++ "' must not be None.")
  else Return argument.

(** [Guard.against_negative] *)
Definition against_negative (argument : pyval) (argument_name : string)
  : result pyval :=
  match lt_int argument 0 with
  | Raise e => Raise e
  | Return true =>
      raise ValueError ("Argument '" ++ argument_name ++ "' must be positive")
  | Return false => Return argument
  end.

(** [Guard.against_empty_string] *)
Definition against_empty_string (argument : pyval) (argument_name : string)
  : result pyval :=
  if eq_str argument "" then
    raise ValueError ("Argument '" ++ argument_name ++ "' must not be ''")
  else Return argument.

(** [Guard.against_zero] *)
Definition against_zero (argument : pyval) (argument_name : string)
  : result pyval :=
  if eq_int argument 0 then
    raise ValueError ("Argument '" ++ argument_name ++ "' must not be zero.")
  else Return argument.

(** [Guard.against_empty_collection] *)
Definition against_empty_collection (argument : pyval) (argument_name : string)
  : result pyval :=
  if negb (truthy argument) then
    raise ValueError ("Argument '" ++ argument_name ++ "' must not be empty.")
  else Return argument.

(** [Guard.against_wrong_type] *)
Definition against_wrong_type (argument : pyval) (expected_type : pytype)
  (argument_name : string) : result pyval :=
  if negb (isinstance argument expected_type) then
    raise TypeError
      ("Argument '" ++ argument_name ++ "' must be of type "
       ++ type_name expected_type ++ ". Got "
       ++ type_name (type_of argument) ++ ".")
  else Return argument.

(** [Guard.against_file_not_found] *)
Definition against_file_not_found (rt : runtime) (path : pyval)
  (argument_name : string) : result pyval :=
  if is_none path then
    raise ValueError ("Argument '" ++ argument_name ++ "' must not be None.")
  else if negb (isinstance_any path [T_str; T_bytes; T_PathLike]) then
    raise TypeError
      ("Argument '" ++ argument_name
       ++ "' must be a valid file path (str, bytes, or os.PathLike).")
  else
    match path_exists rt path with
    | Raise e => Raise e
    | Return false =>
        raise FileNotFoundError ("File not found: '" ++ str rt path ++ "'")
    | Return true => Return path
    end.

(** [Guard.against_directory_not_found]; [argument_name] is not used. *)
Definition against_directory_not_found (rt : runtime) (path : pyval)
  (argument_name : string) : result pyval :=
  match path_isdir rt path with
  | Raise e => Raise e
  | Return false =>
      raise FileNotFoundError ("Directory not found: '" ++ str rt path ++ "'")
  | Return true => Return path
  end.

(** [Guard.against_not_iterable] *)
Definition against_not_iterable (argument : pyval) (argument_name : string)
  : result pyval :=
  if negb (isinstance argument T_Iterable)
     || isinstance_any argument [T_str; T_bytes] then
    raise TypeError
      ("Argument '" ++ argument_name ++ "' must be an iterable (not str/bytes).")
  else Return argument.

(** *** Calls

    A call of one of the nine checks: the value under test, the expected type
    where the check takes one, and the name, [None] when the caller leaves it
    to the default of the signature. *)
Inductive check : Type :=
| AgainstNone | AgainstNegative | AgainstEmptyString | AgainstZero
| AgainstEmptyCollection | AgainstWrongType (expected_type : pytype)
| AgainstFileNotFound | AgainstDirectoryNotFound | AgainstNotIterable.

(** The default of [argument_name] in each signature. *)
Definition default_name (c : check) : string :=
  match c with
  | AgainstFileNotFound => "file_path"
  | AgainstDirectoryNotFound => "directory"
  | _ => "value"
  end.

Definition name_of (c : check) (argument_name : option string) : string :=
  match argument_name with
  | Some n => n
  | None => default_name c
  end.

Definition call (rt : runtime) (c : check) (argument : pyval)
  (argument_name : option string) : result pyval :=
  let name := name_of c argument_name in
  match c with
  | AgainstNone => against_none argument name
  | AgainstNegative => against_negative argument name
  | AgainstEmptyString => against_empty_string argument name
  | AgainstZero => against_zero argument name
  | AgainstEmptyCollection => against_empty_collection argument name
  | AgainstWrongType T => against_wrong_type argument T name
  | AgainstFileNotFound => against_file_not_found rt argument name
  | AgainstDirectoryNotFound => against_directory_not_found rt argument name
  | AgainstNotIterable => against_not_iterable argument name
  end.

(** What a caller can branch on: the value returned, or the class of the
    exception, the message left out. *)
Inductive outcome : Type :=
| Passed (v : pyval)
| Failed (c : exc_class).

Definition outcome_of (r : result pyval) : outcome :=
  match r with
  | Return v => Passed v
  | Raise e => Failed (exc_type e)
  end.

(** The failure kinds of the spec are the exception classes the guards raise:
    InvalidArgument is [ValueError], TypeMismatch is [TypeError] and NotFound
    is [FileNotFoundError]. *)
Definition InvalidArgument : exc_class := ValueError.
Definition TypeMismatch : exc_class := TypeError.
Definition NotFound : exc_class := FileNotFoundError.

(** [fails_with r k]: the call raised an exception of class [k]. *)
Definition fails_with (r : result pyval) (k : exc_class) : Prop :=
  exists msg, r = Raise (Exc k msg).

(** [fails_naming r k name]: it raised [k] with a message that holds [name]. *)
Definition fails_naming (r : result pyval) (k : exc_class) (name : string)
  : Prop :=
  exists msg, r = Raise (Exc k msg) /\ Text.within name msg.

End Guard.

Import Guard.

(* ------------------------------------------------------------------ *)
(** ** Words of the specification

    The spec describes the inputs of three checks in words; each description
    is written down here as the spec has it, to be compared with what the
    code computes. *)

Module Spec.

(** "empty sequence, empty mapping, empty set, numeric zero, or any value
    that evaluates as having no content". *)
Inductive falsy_empty : pyval -> Prop :=
| empty_text : falsy_empty (VStr "")
| empty_bytes : falsy_empty (VBytes [])
| empty_list : falsy_empty (VList [])
| empty_tuple : falsy_empty (VTuple [])
| empty_mapping : falsy_empty (VDict [])
| empty_set : falsy_empty (VSet [])
| zero_int : falsy_empty (VInt 0)
| zero_float : forall sign, falsy_empty (VFloat (S754_zero sign))
| zero_bool : falsy_empty (VBool false)
| no_content : falsy_empty VNone.

(** "numeric value": an [int], a [bool] or a [float]. *)
Definition numeric (v : pyval) : bool :=
  match v with
  | VBool _ | VInt _ | VFloat _ => true
  | _ => false
  end.

(** "equals zero in any numeric representation": the integer [0], [False],
    and the floating-point zero of either sign. *)
Inductive zero_number : pyval -> Prop :=
| int_zero : zero_number (VInt 0)
| bool_zero : zero_number (VBool false)
| float_zero : forall sign, zero_number (VFloat (S754_zero sign)).

(** "supports iteration": a [for] loop can run over the value. *)
Definition supports_iteration (v : pyval) : bool :=
  match iterate v with
  | Some _ => true
  | None => false
  end.

(** "a text or byte sequence". *)
Definition text_or_bytes (v : pyval) : bool :=
  match v with
  | VStr _ | VBytes _ => true
  | _ => false
  end.

(** "a str/bytes/os.PathLike value". *)
Definition path_like (v : pyval) : bool :=
  match v with
  | VStr _ | VBytes _ | VPath _ => true
  | _ => false
  end.

End Spec.

Import Spec.

(* ------------------------------------------------------------------ *)
(** ** Sample surroundings, for the concrete cases *)

Module Sample.

(** A small filesystem: [/etc/hostname] is a regular file, [/tmp] a
    directory, and nothing else exists; descriptors 0 to 2 are the terminal.
    [repr] prints [None], the booleans and the integers as Python does and
    nothing else is asked of it here. *)
Definition rt : runtime := {|
  stat_path := fun p =>
    match p with
    | StrPath s =>
        if String.eqb s "/etc/hostname" then Some RegularFile
        else if String.eqb s "/tmp" then Some Directory
        else None
    | BytesPath _ => None
    end;
  stat_fd := fun n => if (0 <=? n) && (n <=? 2) then Some Special else None;
  repr := fun v =>
    match v with
    | VNone => "None"
    | VBool b => if b then "True" else "False"
    | VInt n => NilZero.string_of_int (Z.to_int n)
    | _ => "<object>"
    end
|}.

End Sample.

(* ------------------------------------------------------------------ *)
(** ** Guards in a row

    A guard returns its argument so that it can be used inline, one guard on
    the result of another: [Guard.against_zero(Guard.against_negative(x))].
    The exception of the inner call leaves the whole expression. *)

Module Chain.

(** [next(r)], where [r] is the outcome of the inner call. *)
Definition and_then (r : result pyval) (next : pyval -> result pyval)
  : result pyval :=
  match r with
  | Return v => next v
  | Raise e => Raise e
  end.

(** A number below zero: a negative [int], a negative finite [float] or
    minus infinity.  Neither zero, nor a [bool], nor NaN is. *)
Definition negative (v : pyval) : bool :=
  match v with
  | VInt n => n <? 0
  | VFloat (S754_infinity s) => s
  | VFloat (S754_finite s _ _) => s
  | _ => false
  end.

(** A [list], [tuple], [dict] or [set]. *)
Definition container (v : pyval) : bool :=
  match v with
  | VList _ | VTuple _ | VDict _ | VSet _ => true
  | _ => false
  end.

(** A [list], [tuple], [dict] or [set] with at least one element. *)
Definition nonempty_container (v : pyval) : bool :=
  match v with
  | VList (_ :: _) | VTuple (_ :: _) | VSet (_ :: _) => true
  | VDict (_ :: _) => true
  | _ => false
  end.

End Chain.

Import Chain.

(* ------------------------------------------------------------------ *)
(** ** Lemmas on texts *)

Lemma prefix_app (n post : string) : String.prefix n (n ++ post) = true.
Proof.
  induction n as [|c n IH]; simpl.
  - destruct post; reflexivity.
  - destruct (ascii_dec c c) as [_|ne]; [exact IH | now elim ne].
Qed.

Lemma withinb_prefix (n h : string) :
  String.prefix n h = true -> Text.withinb n h = true.
Proof. destruct h; simpl; intros ->; reflexivity. Qed.

Lemma within_withinb (n h : string) : Text.within n h -> Text.withinb n h = true.
Proof.
  intros [pre [post ->]].
  induction pre as [|c pre IH].
  - change ("" ++ n ++ post) with (n ++ post).
    apply withinb_prefix, prefix_app.
  - simpl. rewrite IH. apply orb_true_r.
Qed.

Lemma within_head (n post : string) : Text.within n (n ++ post).
Proof. now exists "", post. Qed.

Lemma prefix_inv (n h : string) :
  String.prefix n h = true -> exists post, h = n ++ post.
Proof.
  revert h. induction n as [|c n IH]; intros h.
  - intros _. now exists h.
  - destruct h as [|d h]; simpl; [discriminate|].
    destruct (ascii_dec c d) as [->|_]; [|discriminate].
    intros P. destruct (IH h P) as [post ->]. now exists post.
Qed.

Lemma withinb_within (n h : string) : Text.withinb n h = true -> Text.within n h.
Proof.
  induction h as [|c h IH]; simpl; intros E; apply orb_true_iff in E;
    destruct E as [P|E]; try discriminate.
  - destruct (prefix_inv n "" P) as [post ->]. apply within_head.
  - destruct (prefix_inv n (String c h) P) as [post ->]. apply within_head.
  - destruct (IH E) as [pre [post ->]]. now exists (String c pre), post.
Qed.

Lemma withinb_false (n h : string) : Text.withinb n h = false -> ~ Text.within n h.
Proof.
  intros E W. apply within_withinb in W. congruence.
Qed.

Lemma within_after (pre n h : string) : Text.within n h -> Text.within n (pre ++ h).
Proof.
  intros [a [b ->]]. exists (pre ++ a), b.
  induction pre as [|c pre IH]; simpl; [reflexivity | now rewrite IH].
Qed.

(** Finds the needle among the pieces of a formatted message. *)
Ltac find_within := repeat first [apply within_head | apply within_after].

(** ** Lemmas on the Python model *)

Lemma float_eq_int_zero (x : spec_float) : float_eq_int x 0 = float_is_zero x.
Proof.
  destruct x as [s|s| |s m e]; cbn [float_eq_int float_is_zero];
    try reflexivity.
  destruct (0 <=? e) eqn:E.
  - apply Z.leb_le in E. apply Z.eqb_neq.
    assert (0 < 2 ^ e) by (apply Z.pow_pos_nonneg; lia).
    intros P. apply Z.mul_eq_0 in P. destruct P as [P|P]; [|lia].
    destruct s; discriminate P.
  - destruct s; reflexivity.
Qed.

Lemma eq_int_zero_number (v : pyval) : eq_int v 0 = true <-> zero_number v.
Proof.
  split.
  - destruct v as [ |b|n|x|s|b|l|l|d|l|s|l]; simpl; try discriminate.
    + destruct b; [discriminate | constructor].
    + intros E. apply Z.eqb_eq in E. subst. constructor.
    + rewrite float_eq_int_zero. destruct x; try discriminate. constructor.
  - intros []; reflexivity.
Qed.

Lemma truthy_falsy_empty (v : pyval) : truthy v = false <-> falsy_empty v.
Proof.
  split.
  - destruct v as [ |b|n|x|s|b|l|l|d|l|s|l]; simpl; intros E;
      try discriminate; try constructor.
    + subst. constructor.
    + apply negb_false_iff, Z.eqb_eq in E. subst. constructor.
    + destruct x; try discriminate. constructor.
    + apply negb_false_iff, String.eqb_eq in E. subst. constructor.
    + destruct b; [constructor | discriminate].
    + destruct l; [constructor | discriminate].
    + destruct l; [constructor | discriminate].
    + destruct d; [constructor | discriminate].
    + destruct l; [constructor | discriminate].
  - intros []; reflexivity.
Qed.

Lemma isinstance_iterable (v : pyval) :
  isinstance v T_Iterable = true -> supports_iteration v = true.
Proof. destruct v; try discriminate; reflexivity. Qed.

Lemma iterates_unseen (v : pyval) :
  supports_iteration v = true -> isinstance v T_Iterable = false ->
  exists items, v = VIndexed items.
Proof.
  destruct v; try discriminate; intros _ _. now eexists.
Qed.

Lemma isinstance_text_or_bytes (v : pyval) :
  isinstance_any v [T_str; T_bytes] = text_or_bytes v.
Proof. destruct v; reflexivity. Qed.

Lemma isinstance_path_like (v : pyval) :
  isinstance_any v [T_str; T_bytes; T_PathLike] = path_like v.
Proof. destruct v; reflexivity. Qed.

Lemma fails_with_raise (k k' : exc_class) (msg : string) :
  fails_with (raise k msg) k' <-> k = k'.
Proof.
  unfold fails_with, raise. split.
  - intros [m E]. now inversion E.
  - intros ->. now exists msg.
Qed.

Lemma fails_with_return (v : pyval) (k : exc_class) : ~ fails_with (Return v) k.
Proof. intros [m E]. discriminate. Qed.

Lemma raise_inv (k k' : exc_class) (m m' : string) :
  @raise pyval k m = Raise (Exc k' m') -> k = k' /\ m = m'.
Proof. unfold raise. intros E. injection E. auto. Qed.

(** From a raised exception to its message, which is kept as it was built. *)
Ltac raised := let E := fresh in intros E; apply raise_inv in E; destruct E as [? <-].

(* ------------------------------------------------------------------ *)
(** ** The value checks *)

Example wrong_type_int_for_str :
  against_wrong_type (VInt 5) T_str "x"
  = Raise (Exc TypeError "Argument 'x' must be of type str. Got int.").
Proof. reflexivity. Qed.

Example wrong_type_str_for_str :
  against_wrong_type (VStr "a") T_str "x" = Return (VStr "a").
Proof. reflexivity. Qed.

Example wrong_type_bool_is_int :
  against_wrong_type (VBool true) T_int "x" = Return (VBool true).
Proof. reflexivity. Qed.

(** C4: [against_wrong_type(v, T, name)] returns [v] unchanged when [v] is an
    instance of [T]; otherwise it fails with TypeMismatch and the message
    holds both the name of [T] and the name of the runtime type of [v]. *)
Theorem against_wrong_type_correct (v : pyval) (T : pytype) (name : string) :
  (isinstance v T = true -> against_wrong_type v T name = Return v)
  /\ (isinstance v T = false ->
      exists msg,
        against_wrong_type v T name = Raise (Exc TypeMismatch msg)
        /\ Text.within (type_name T) msg
        /\ Text.within (type_name (type_of v)) msg).
Proof.
  unfold against_wrong_type. split; intros E; rewrite E; cbn [negb].
  - reflexivity.
  - eexists. split; [reflexivity|]. split.
    + find_within.
    + find_within.
Qed.

Example empty_collection_list :
  against_empty_collection (VList []) "c"
  = Raise (Exc ValueError "Argument 'c' must not be empty.").
Proof. reflexivity. Qed.

Example empty_collection_dict :
  outcome_of (against_empty_collection (VDict []) "c") = Failed ValueError.
Proof. reflexivity. Qed.

Example empty_collection_singleton :
  against_empty_collection (VList [VInt 1]) "c" = Return (VList [VInt 1]).
Proof. reflexivity. Qed.

(** C5: [against_empty_collection(v, name)] fails with InvalidArgument
    exactly when [v] is falsy (an empty sequence, mapping or set, a numeric
    zero, or a value with no content), and otherwise returns [v] unchanged. *)
Theorem against_empty_collection_correct (v : pyval) (name : string) :
  (fails_with (against_empty_collection v name) InvalidArgument
   <-> falsy_empty v)
  /\ (~ falsy_empty v -> against_empty_collection v name = Return v).
Proof.
  unfold against_empty_collection.
  rewrite <- truthy_falsy_empty.
  destruct (truthy v); cbn [negb]; split.
  - split; [intros F; now apply fails_with_return in F | discriminate].
  - reflexivity.
  - split; [reflexivity | intros _; now apply fails_with_raise].
  - intros N. now elim N.
Qed.

Example not_iterable_list :
  against_not_iterable (VList [VInt 1; VInt 2]) "x"
  = Return (VList [VInt 1; VInt 2]).
Proof. reflexivity. Qed.

Example not_iterable_str :
  against_not_iterable (VStr "abc") "x"
  = Raise (Exc TypeError "Argument 'x' must be an iterable (not str/bytes).").
Proof. reflexivity. Qed.

Example not_iterable_int :
  outcome_of (against_not_iterable (VInt 5) "x") = Failed TypeError.
Proof. reflexivity. Qed.

Example not_iterable_indexed :
  iterate (VIndexed [VInt 1; VInt 2]) = Some [VInt 1; VInt 2]
  /\ against_not_iterable (VIndexed [VInt 1; VInt 2]) "x"
     = Raise (Exc TypeError "Argument 'x' must be an iterable (not str/bytes).").
Proof. split; reflexivity. Qed.

(** What [against_not_iterable] does keep of its contract: a value it returns
    is the argument, supports iteration and is no text or byte sequence; a
    value that does not support iteration, and a text or byte sequence, fail
    with TypeMismatch; and among the values that support iteration only
    those that iterate through [__getitem__] alone are turned away
    wrongly. *)
Lemma against_not_iterable_checks (v : pyval) (name : string) :
  (forall w, against_not_iterable v name = Return w ->
     w = v /\ supports_iteration v = true /\ text_or_bytes v = false)
  /\ (supports_iteration v = false \/ text_or_bytes v = true ->
      fails_with (against_not_iterable v name) TypeMismatch)
  /\ (supports_iteration v = true -> text_or_bytes v = false ->
      (forall items, v <> VIndexed items) ->
      against_not_iterable v name = Return v).
Proof.
  unfold against_not_iterable. rewrite isinstance_text_or_bytes.
  destruct (isinstance v T_Iterable) eqn:I; cbn [negb orb].
  - pose proof (isinstance_iterable v I) as S. rewrite S.
    destruct (text_or_bytes v); (split; [|split]).
    + intros w E. discriminate E.
    + intros _. now apply fails_with_raise.
    + intros _ E. discriminate E.
    + intros w E. injection E as <-. repeat split.
    + intros [E|E]; discriminate E.
    + reflexivity.
  - split; [|split].
    + intros w E. discriminate E.
    + intros _. now apply fails_with_raise.
    + intros S _ N. destruct (iterates_unseen v S I) as [items ->].
      now elim (N items).
Qed.

(** C6: [against_not_iterable] is to fail exactly when the value does not
    support iteration or is a text or byte sequence.  The code asks
    [isinstance(argument, Iterable)], which looks for [__iter__]: an object
    that iterates through [__getitem__] alone supports iteration, is no text
    or byte sequence, and is turned away with TypeMismatch all the same. *)
Theorem against_not_iterable_rejects_sequence_protocol
  (items : list pyval) (name : string) :
  iterate (VIndexed items) = Some items
  /\ supports_iteration (VIndexed items) = true
  /\ text_or_bytes (VIndexed items) = false
  /\ isinstance (VIndexed items) T_Iterable = false
  /\ against_not_iterable (VIndexed items) name
     = Raise (Exc TypeMismatch
         ("Argument '" ++ name ++ "' must be an iterable (not str/bytes).")).
Proof. repeat split. Qed.

Example zero_int_fails :
  against_zero (VInt 0) "z"
  = Raise (Exc ValueError "Argument 'z' must not be zero.").
Proof. reflexivity. Qed.

Example zero_float_fails :
  outcome_of (against_zero (VFloat (S754_zero false)) "z") = Failed ValueError.
Proof. reflexivity. Qed.

Example zero_one_passes : against_zero (VInt 1) "z" = Return (VInt 1).
Proof. reflexivity. Qed.

(** One half, in binary: mantissa 1, exponent -1. *)
Example zero_half_passes :
  against_zero (VFloat (S754_finite false 1 (-1))) "z"
  = Return (VFloat (S754_finite false 1 (-1))).
Proof. reflexivity. Qed.

(** C7: for a numeric [v], [against_zero(v, name)] fails with InvalidArgument
    exactly when [v] equals zero in any numeric representation (the integer
    0, the floating-point 0.0), and otherwise returns [v] unchanged. *)
Theorem against_zero_correct (v : pyval) (name : string) :
  numeric v = true ->
  (fails_with (against_zero v name) InvalidArgument <-> zero_number v)
  /\ (~ zero_number v -> against_zero v name = Return v).
Proof.
  intros _. unfold against_zero.
  rewrite <- eq_int_zero_number.
  destruct (eq_int v 0); split.
  - split; [reflexivity | intros _; now apply fails_with_raise].
  - intros N. now elim N.
  - split; [intros F; now apply fails_with_return in F | discriminate].
  - reflexivity.
Qed.

Lemma against_zero_float_witness :
  numeric (VFloat (S754_zero true)) = true
  /\ fails_with (against_zero (VFloat (S754_zero true)) "z") InvalidArgument.
Proof.
  split; [reflexivity|].
  apply (against_zero_correct (VFloat (S754_zero true)) "z"); [reflexivity|].
  constructor.
Defined.

Example empty_string_fails :
  against_empty_string (VStr "") "s"
  = Raise (Exc ValueError "Argument 's' must not be ''").
Proof. reflexivity. Qed.

Example empty_string_blank_passes :
  against_empty_string (VStr " ") "s" = Return (VStr " ").
Proof. reflexivity. Qed.

(** C8: for a string [s], [against_empty_string(s, name)] fails with
    InvalidArgument exactly when [s] is the empty string, and otherwise
    returns [s] unchanged; a whitespace-only string passes. *)
Theorem against_empty_string_correct (s name : string) :
  (fails_with (against_empty_string (VStr s) name) InvalidArgument <-> s = "")
  /\ (s <> "" -> against_empty_string (VStr s) name = Return (VStr s))
  /\ against_empty_string (VStr " ") name = Return (VStr " ").
Proof.
  unfold against_empty_string, eq_str.
  destruct (String.eqb_spec s "") as [->|N]; repeat split;
    try reflexivity; try (intros; now apply fails_with_raise).
  - intros E. now elim E.
  - intros F. now apply fails_with_return in F.
  - intros E. now elim N.
Qed.

(** C10: [against_empty_string] places no type constraint on its argument: a
    value that is not a string ([None], a number, a collection) is returned
    unchanged, as only equality with the empty string fails. *)
Theorem against_empty_string_untyped (v : pyval) (name : string) :
  (forall s, v <> VStr s) -> against_empty_string v name = Return v.
Proof.
  intros N. unfold against_empty_string.
  destruct v; try reflexivity. now elim (N s).
Qed.

Lemma against_empty_string_untyped_witness :
  against_empty_string VNone "s" = Return VNone
  /\ against_empty_string (VInt 0) "s" = Return (VInt 0)
  /\ against_empty_string (VList []) "s" = Return (VList []).
Proof.
  split; [|split];
    apply against_empty_string_untyped; intros s E; discriminate E.
Defined.

(* ------------------------------------------------------------------ *)
(** ** The filesystem checks *)

Section Filesystem.

Variable rt : runtime.

Lemma path_exists_path_like (v : pyval) :
  path_like v = true ->
  path_exists rt v
  = Return (match resolves rt v with Some _ => true | None => false end).
Proof.
  destruct v; try discriminate; intros _;
    unfold path_exists, stat_test, os_stat, stat_at, resolves.
  - destruct (Text.has_nul s); [reflexivity|].
    destruct (stat_path rt (StrPath s)); reflexivity.
  - destruct (bytes_have_nul b); [reflexivity|].
    destruct (stat_path rt (BytesPath b)); reflexivity.
  - destruct (Text.has_nul s); [reflexivity|].
    destruct (stat_path rt (StrPath s)); reflexivity.
Qed.

Lemma path_isdir_path_like (v : pyval) :
  path_like v = true ->
  path_isdir rt v
  = Return (match resolves rt v with Some Directory => true | _ => false end).
Proof.
  destruct v; try discriminate; intros _;
    unfold path_isdir, stat_test, os_stat, stat_at, resolves.
  - destruct (Text.has_nul s); [reflexivity|].
    destruct (stat_path rt (StrPath s)); reflexivity.
  - destruct (bytes_have_nul b); [reflexivity|].
    destruct (stat_path rt (BytesPath b)); reflexivity.
  - destruct (Text.has_nul s); [reflexivity|].
    destruct (stat_path rt (StrPath s)); reflexivity.
Qed.

(** [os.path.isdir] lets a [TypeError] through for what [os.stat] does not
    take. *)
Lemma path_isdir_rejects (v : pyval) :
  stat_takes v = false ->
  path_isdir rt v
  = raise TypeError
      ("stat: path should be string, bytes, os.PathLike or integer, not "
       ++ type_name (type_of v)).
Proof. destruct v; try discriminate; reflexivity. Qed.

(** [os.path.isdir] never lets a [ValueError] or a [FileNotFoundError]
    through. *)
Lemma path_isdir_raises (v : pyval) (e : exception) :
  path_isdir rt v = Raise e ->
  exc_type e = TypeError \/ exc_type e = OverflowError.
Proof.
  unfold path_isdir, stat_test.
  destruct (os_stat rt v) as [k|[c m]]; [discriminate|].
  destruct c; cbn; intros E; inversion E; auto.
Qed.

(** The three branches of [against_file_not_found], with the filesystem
    query resolved. *)
Lemma against_file_not_found_cases (path : pyval) (name : string) :
  against_file_not_found rt path name
  = if is_none path then
      raise ValueError ("Argument '" ++ name ++ "' must not be None.")
    else if negb (path_like path) then
      raise TypeError
        ("Argument '" ++ name
         ++ "' must be a valid file path (str, bytes, or os.PathLike).")
    else
      match resolves rt path with
      | Some _ => Return path
      | None =>
          raise FileNotFoundError ("File not found: '" ++ str rt path ++ "'")
      end.
Proof.
  unfold against_file_not_found. rewrite isinstance_path_like.
  destruct (is_none path); [reflexivity|].
  destruct (path_like path) eqn:P; [|reflexivity].
  cbn [negb]. rewrite (path_exists_path_like path P).
  destruct (resolves rt path); reflexivity.
Qed.

(** What [against_file_not_found] does keep of its contract: [None] is an
    InvalidArgument, another value that is not path-like a TypeMismatch, a
    path that resolves to nothing a NotFound, and a regular file passes. *)
Lemma against_file_not_found_checks (path : pyval) (name : string) :
  (path = VNone -> fails_with (against_file_not_found rt path name) InvalidArgument)
  /\ (path <> VNone -> path_like path = false ->
      fails_with (against_file_not_found rt path name) TypeMismatch)
  /\ (path_like path = true -> resolves rt path = None ->
      fails_with (against_file_not_found rt path name) NotFound)
  /\ (path_like path = true -> resolves rt path = Some RegularFile ->
      against_file_not_found rt path name = Return path).
Proof.
  rewrite against_file_not_found_cases. repeat split.
  - intros ->. now apply fails_with_raise.
  - intros N P. rewrite P.
    destruct path; try discriminate; solve [now apply fails_with_raise | now elim N].
  - intros P R. rewrite P, R. destruct path; try discriminate;
      now apply fails_with_raise.
  - intros P R. rewrite P, R. destruct path; try discriminate; reflexivity.
Qed.

Example file_not_found_none :
  against_file_not_found Sample.rt VNone "p"
  = Raise (Exc ValueError "Argument 'p' must not be None.").
Proof. reflexivity. Qed.

Example file_not_found_int :
  against_file_not_found Sample.rt (VInt 123) "p"
  = Raise (Exc TypeError
      "Argument 'p' must be a valid file path (str, bytes, or os.PathLike).").
Proof. reflexivity. Qed.

Example file_not_found_missing :
  against_file_not_found Sample.rt (VStr "/nonexistent/path") "p"
  = Raise (Exc FileNotFoundError "File not found: '/nonexistent/path'").
Proof. reflexivity. Qed.

Example file_not_found_regular :
  against_file_not_found Sample.rt (VStr "/etc/hostname") "p"
  = Return (VStr "/etc/hostname").
Proof. reflexivity. Qed.

(** C1: [against_file_not_found] is to fail with NotFound on a path that
    exists but is not a regular file.  The code asks [os.path.exists], so a
    path that resolves to a directory is returned as if it were a file. *)
Theorem against_file_not_found_accepts_directory (path : pyval) (name : string) :
  path_like path = true ->
  resolves rt path = Some Directory ->
  against_file_not_found rt path name = Return path.
Proof.
  intros P R. rewrite against_file_not_found_cases, P, R.
  destruct path; try discriminate; reflexivity.
Qed.

(** The NotFound message is built from the path alone. *)
Lemma not_found_message_ignores_name
  (c : check) (path : pyval) (n1 n2 : option string) (msg : string) :
  call rt c path n1 = Raise (Exc NotFound msg) ->
  call rt c path n2 = Raise (Exc NotFound msg).
Proof.
  destruct c; cbn [call].
  - unfold against_none. destruct (is_none path); discriminate.
  - unfold against_negative.
    destruct (lt_int path 0) as [[|]|e] eqn:L; try discriminate.
    intros E. exact E.
  - unfold against_empty_string. destruct (eq_str path ""); discriminate.
  - unfold against_zero. destruct (eq_int path 0); discriminate.
  - unfold against_empty_collection. destruct (truthy path); discriminate.
  - unfold against_wrong_type.
    destruct (isinstance path expected_type); discriminate.
  - rewrite !against_file_not_found_cases.
    destruct (is_none path); [discriminate|].
    destruct (path_like path); [|discriminate].
    cbn [negb]. destruct (resolves rt path); [discriminate|]. intros E; exact E.
  - unfold against_directory_not_found. intros E; exact E.
  - unfold against_not_iterable.
    destruct (negb (isinstance path T_Iterable)
              || isinstance_any path [T_str; T_bytes]); discriminate.
Qed.

(** Every failure a guard raises by a [raise] statement of its own, the two
    NotFound ones apart, holds the name of the argument in its message.  The
    exceptions of the interpreter ([<] on a value that is not a number, the
    argument conversion of [os.stat]) are not the guards' own. *)
Lemma own_failures_name_argument
  (c : check) (v : pyval) (name : option string)
  (k : exc_class) (msg : string) :
  call rt c v name = Raise (Exc k msg) ->
  k <> NotFound ->
  (c = AgainstNegative -> numeric v = true) ->
  c <> AgainstDirectoryNotFound ->
  Text.within (name_of c name) msg.
Proof.
  intros E K Neg Dir. revert E.
  unfold call. cbv zeta. generalize (name_of c name) as n. intros n.
  destruct c.
  - unfold against_none. destruct (is_none v); [|discriminate].
    raised. find_within.
  - specialize (Neg eq_refl). unfold against_negative.
    destruct v; try discriminate Neg; cbn [lt_int]; cbv beta iota;
      match goal with |- context [if ?b then _ else _] => destruct b end;
      try discriminate; raised; find_within.
  - unfold against_empty_string. destruct (eq_str v ""); [|discriminate].
    raised. find_within.
  - unfold against_zero. destruct (eq_int v 0); [|discriminate].
    raised. find_within.
  - unfold against_empty_collection. destruct (truthy v); [discriminate|].
    raised. find_within.
  - unfold against_wrong_type.
    destruct (isinstance v expected_type); [discriminate|].
    raised. find_within.
  - rewrite against_file_not_found_cases.
    destruct (is_none v); [raised; find_within|].
    destruct (path_like v); cbn [negb];
      [|raised; find_within].
    destruct (resolves rt v); [discriminate|].
    raised. now elim K.
  - now elim Dir.
  - unfold against_not_iterable.
    destruct (negb (isinstance v T_Iterable)
              || isinstance_any v [T_str; T_bytes]); [|discriminate].
    raised. find_within.
Qed.

(** C2: every failure is to carry a message that holds the name of the
    argument.  The NotFound failures of both filesystem checks format the path
    and leave the name out, whether the caller gave one or the default
    applies. *)
Theorem not_found_messages_omit_name :
  call Sample.rt AgainstFileNotFound (VStr "/missing") (Some "cfg")
  = Raise (Exc NotFound "File not found: '/missing'")
  /\ Text.withinb "cfg" "File not found: '/missing'" = false
  /\ call Sample.rt AgainstFileNotFound (VStr "/missing") None
     = Raise (Exc NotFound "File not found: '/missing'")
  /\ Text.withinb (default_name AgainstFileNotFound)
       "File not found: '/missing'" = false
  /\ call Sample.rt AgainstDirectoryNotFound (VStr "/missing") (Some "cfg")
     = Raise (Exc NotFound "Directory not found: '/missing'")
  /\ Text.withinb "cfg" "Directory not found: '/missing'" = false
  /\ ~ fails_naming
         (call Sample.rt AgainstFileNotFound (VStr "/missing") (Some "cfg"))
         NotFound "cfg"
  /\ ~ fails_naming
         (call Sample.rt AgainstDirectoryNotFound (VStr "/missing") (Some "cfg"))
         NotFound "cfg".
Proof.
  repeat split; try reflexivity;
    intros [msg [E W]]; inversion E; subst;
    apply within_withinb in W; discriminate W.
Qed.

Example directory_not_found_regular_file :
  against_directory_not_found Sample.rt (VStr "/etc/hostname") "d"
  = Raise (Exc FileNotFoundError "Directory not found: '/etc/hostname'").
Proof. reflexivity. Qed.

Example directory_not_found_directory :
  against_directory_not_found Sample.rt (VPath "/tmp") "d" = Return (VPath "/tmp").
Proof. reflexivity. Qed.

(** C3, as the claim has it: [against_directory_not_found] is to fail with
    InvalidArgument on [None] and with TypeMismatch on a value that is not
    path-like.  It has neither check: [None] reaches [os.stat], which raises a
    [TypeError], and the integer 7 is looked up as a file descriptor and
    reported as NotFound. *)
Lemma against_directory_not_found_unguarded :
  against_directory_not_found Sample.rt VNone "p"
  = Raise (Exc TypeMismatch
      "stat: path should be string, bytes, os.PathLike or integer, not NoneType")
  /\ ~ fails_with (against_directory_not_found Sample.rt VNone "p") InvalidArgument
  /\ path_like (VInt 7) = false
  /\ against_directory_not_found Sample.rt (VInt 7) "p"
     = Raise (Exc NotFound "Directory not found: '7'")
  /\ ~ fails_with (against_directory_not_found Sample.rt (VInt 7) "p") TypeMismatch.
Proof.
  repeat split; try reflexivity; intros [msg E]; discriminate E.
Qed.

(** C3, amended: [against_directory_not_found] makes the directory check
    only.  For a [str], [bytes] or [os.PathLike] path it fails with NotFound
    exactly when the path does not resolve to an existing directory (a path to
    a regular file fails with NotFound) and otherwise returns the path
    unchanged.  It never fails with InvalidArgument: [None], like every value
    of a type [os.stat] does not take, fails with TypeMismatch, and an integer
    is looked up as a file descriptor. *)
Theorem against_directory_not_found_correct (path : pyval) (name : string) :
  (path_like path = true ->
     (fails_with (against_directory_not_found rt path name) NotFound
      <-> resolves rt path <> Some Directory)
     /\ (resolves rt path = Some RegularFile ->
         fails_with (against_directory_not_found rt path name) NotFound)
     /\ (resolves rt path = Some Directory ->
         against_directory_not_found rt path name = Return path))
  /\ (stat_takes path = false ->
      fails_with (against_directory_not_found rt path name) TypeMismatch)
  /\ fails_with (against_directory_not_found rt VNone name) TypeMismatch
  /\ (forall fd, fd_in_range fd = true -> stat_fd rt fd = Some Directory ->
      against_directory_not_found rt (VInt fd) name = Return (VInt fd))
  /\ ~ fails_with (against_directory_not_found rt path name) InvalidArgument.
Proof.
  unfold against_directory_not_found.
  split; [intros P | split; [intros S | split; [|split]]].
  - rewrite (path_isdir_path_like path P).
    destruct (resolves rt path) as [[| |]|]; cbv beta iota;
      (split; [split; intros F | split; intros F]);
      try discriminate F; try reflexivity;
      try (now apply fails_with_raise);
      try (now apply fails_with_return in F);
      solve [now elim F | discriminate].
  - rewrite (path_isdir_rejects path S). now apply fails_with_raise.
  - now apply fails_with_raise.
  - intros fd R D. unfold path_isdir, stat_test, os_stat. rewrite R, D.
    reflexivity.
  - intros [msg E].
    destruct (path_isdir rt path) as [[|]|e] eqn:D; try discriminate.
    injection E as ->.
    destruct (path_isdir_raises path _ D) as [X|X]; discriminate X.
Qed.

End Filesystem.

Lemma against_file_not_found_accepts_tmp :
  against_file_not_found Sample.rt (VStr "/tmp") "p" = Return (VStr "/tmp").
Proof.
  apply (against_file_not_found_accepts_directory Sample.rt (VStr "/tmp") "p");
    reflexivity.
Defined.

(* ------------------------------------------------------------------ *)
(** ** All checks *)

Lemma call_returns_argument
  (rt : runtime) (c : check) (v w : pyval) (name : option string) :
  call rt c v name = Return w -> w = v.
Proof.
  unfold call. cbv zeta. generalize (name_of c name) as n. intros n.
  destruct c.
  all: unfold against_none, against_negative, against_empty_string,
    against_zero, against_empty_collection, against_wrong_type,
    against_file_not_found, against_directory_not_found, against_not_iterable;
    repeat match goal with
      | |- context [if ?b then _ else _] => destruct b
      | |- context [match ?r with Return _ => _ | Raise _ => _ end] =>
          destruct r as [[|]|?]
      end;
    unfold raise; intros E; inversion E; reflexivity.
Qed.

Lemma call_outcome_ignores_name
  (rt : runtime) (c : check) (v : pyval) (n1 n2 : option string) :
  outcome_of (call rt c v n1) = outcome_of (call rt c v n2).
Proof.
  unfold call. cbv zeta.
  generalize (name_of c n1) as a, (name_of c n2) as b. intros a b.
  destruct c.
  all: unfold against_none, against_negative, against_empty_string,
    against_zero, against_empty_collection, against_wrong_type,
    against_file_not_found, against_directory_not_found, against_not_iterable;
    repeat match goal with
      | |- context [if ?b then _ else _] => destruct b
      | |- context [match ?r with Return _ => _ | Raise _ => _ end] =>
          destruct r as [[|]|?]
      end;
    reflexivity.
Qed.

(** C9: whenever a check succeeds it returns exactly the value it was given,
    and the name never decides whether the check succeeds or fails (nor the
    kind of the failure): it shows in the message only. *)
Theorem checks_return_argument_and_ignore_name
  (rt : runtime) (c : check) (v : pyval) (name : option string) :
  (forall w, call rt c v name = Return w -> w = v)
  /\ (forall name', outcome_of (call rt c v name') = outcome_of (call rt c v name)).
Proof.
  split.
  - intros w. apply call_returns_argument.
  - intros name'. apply call_outcome_ignores_name.
Qed.

(* ------------------------------------------------------------------ *)
(** ** The two checks no claim describes: [against_none], [against_negative] *)

(** X1: [against_none(v, name)] fails, with InvalidArgument and a message
    that holds the name, exactly when [v] is [None]; every other value, the
    falsy ones included, is returned unchanged. *)
Theorem against_none_correct (v : pyval) (name : string) :
  (fails_naming (against_none v name) ValueError name <-> v = VNone)
  /\ (forall k, fails_with (against_none v name) k -> k = ValueError /\ v = VNone)
  /\ (v <> VNone -> against_none v name = Return v).
Proof.
  unfold against_none. destruct (is_none v) eqn:I.
  - assert (v = VNone) as -> by (destruct v; try discriminate; reflexivity).
    split; [split; [reflexivity|] | split].
    + intros _. eexists. split; [reflexivity | find_within].
    + intros k [msg E]. apply raise_inv in E. destruct E as [<- _]. now split.
    + intros N. now elim N.
  - assert (v <> VNone) as N by (intros ->; discriminate).
    split; [split | split].
    + intros [msg [E _]]. discriminate E.
    + intros E. now elim N.
    + intros k [msg E]. discriminate E.
    + reflexivity.
Qed.

Lemma float_lt_int_zero (x : spec_float) :
  float_lt_int x 0 = negative (VFloat x).
Proof.
  destruct x as [s|s| |s m e]; cbn [float_lt_int negative]; try reflexivity.
  destruct (0 <=? e) eqn:E.
  - apply Z.leb_le in E.
    assert (0 < 2 ^ e) by (apply Z.pow_pos_nonneg; lia).
    destruct s; unfold signed.
    + apply Z.ltb_lt. apply Z.mul_neg_pos; lia.
    + apply Z.ltb_ge. apply Z.mul_nonneg_nonneg; lia.
  - destruct s; reflexivity.
Qed.

Lemma lt_int_zero_numeric (v : pyval) :
  numeric v = true -> lt_int v 0 = Return (negative v).
Proof.
  destruct v; try discriminate; intros _; cbn [lt_int].
  - destruct b; reflexivity.
  - reflexivity.
  - now rewrite float_lt_int_zero.
Qed.

(** X2: for a number [v], [against_negative(v, name)] fails with
    InvalidArgument exactly when [v] is below zero (a negative [int], a
    negative finite [float], minus infinity) and otherwise returns [v]
    unchanged: zero of either sign, a [bool] and NaN pass, although the
    message asks for a positive value. *)
Theorem against_negative_correct (v : pyval) (name : string) :
  numeric v = true ->
  (fails_naming (against_negative v name) ValueError name <-> negative v = true)
  /\ (negative v = false -> against_negative v name = Return v).
Proof.
  intros N. unfold against_negative. rewrite (lt_int_zero_numeric v N).
  destruct (negative v); split.
  - split; [reflexivity|]. intros _. eexists. split; [reflexivity | find_within].
  - discriminate.
  - split; [|discriminate]. intros [msg [E _]]. discriminate E.
  - reflexivity.
Qed.

Lemma against_negative_minus_one :
  numeric (VInt (-1)) = true
  /\ fails_naming (against_negative (VInt (-1)) "n") ValueError "n"
  /\ against_negative (VFloat (S754_zero true)) "n" = Return (VFloat (S754_zero true))
  /\ against_negative (VFloat S754_nan) "n" = Return (VFloat S754_nan).
Proof.
  split; [reflexivity|]. split; [|split].
  - apply (against_negative_correct (VInt (-1)) "n"); reflexivity.
  - apply (against_negative_correct (VFloat (S754_zero true)) "n"); reflexivity.
  - apply (against_negative_correct (VFloat S754_nan) "n"); reflexivity.
Defined.

(** X3: on a value that is not a number [against_negative] does not reach
    its own [raise]: the comparison [argument < 0] raises a [TypeError] whose
    message gives the type of the value and is the same for every name. *)
Theorem against_negative_not_a_number (v : pyval) (name : string) :
  numeric v = false ->
  against_negative v name
  = Raise (Exc TypeError
      ("'<' not supported between instances of '"
       ++ type_name (type_of v) ++ "' and 'int'"))
  /\ ~ fails_with (against_negative v name) ValueError.
Proof.
  intros N. unfold against_negative.
  destruct v; try discriminate N; cbn [lt_int]; unfold raise;
    (split; [reflexivity | intros [msg E]; discriminate E]).
Qed.

Lemma against_negative_text :
  against_negative (VStr "5") "n"
  = Raise (Exc TypeError "'<' not supported between instances of 'str' and 'int'")
  /\ ~ fails_with (against_negative (VStr "5") "n") ValueError.
Proof.
  apply (against_negative_not_a_number (VStr "5") "n"). reflexivity.
Defined.

(** X4: [against_zero] places no type constraint either: a value that is
    not a number ([None], a text such as "0", a container) is returned
    unchanged. *)
Theorem against_zero_untyped (v : pyval) (name : string) :
  numeric v = false -> against_zero v name = Return v.
Proof.
  intros N. unfold against_zero. destruct v; try discriminate N; reflexivity.
Qed.

Lemma against_zero_untyped_witness :
  against_zero (VStr "0") "z" = Return (VStr "0")
  /\ against_zero VNone "z" = Return VNone.
Proof.
  split; apply against_zero_untyped; reflexivity.
Defined.

(* ------------------------------------------------------------------ *)
(** ** Guards in a row *)

Lemma negative_not_zero (v : pyval) : negative v = true -> eq_int v 0 = false.
Proof.
  destruct v as [ |b|n|x|s|b|l|l|d|l|s|l]; try discriminate; cbn [negative eq_int].
  - intros L. apply Z.ltb_lt in L. apply Z.eqb_neq. lia.
  - rewrite float_eq_int_zero. destruct x; try discriminate; reflexivity.
Qed.

(** X5: the two numeric checks in a row accept an [int] exactly when it is
    strictly positive, and on an [int], a [bool] or a [float] the outcome
    (the value returned or the class of the exception) is the same in either
    order. *)
Theorem negative_then_zero (v : pyval) (n : Z) (a b : string) :
  numeric v = true ->
  (and_then (against_negative (VInt n) a) (fun w => against_zero w b)
   = Return (VInt n) <-> 0 < n)
  /\ outcome_of (and_then (against_negative v a) (fun w => against_zero w b))
     = outcome_of (and_then (against_zero v b) (fun w => against_negative w a)).
Proof.
  intros N. split.
  - unfold against_negative, against_zero, and_then. cbn [lt_int].
    destruct (Z.ltb_spec n 0) as [L|L]; cbv beta iota.
    + split; [discriminate | lia].
    + cbn [eq_int]. destruct (Z.eqb_spec n 0) as [E|E].
      * split; [discriminate | lia].
      * split; [lia | reflexivity].
  - unfold against_negative, against_zero.
    rewrite (lt_int_zero_numeric v N).
    destruct (negative v) eqn:G.
    + rewrite (negative_not_zero v G). cbn [and_then].
      rewrite (lt_int_zero_numeric v N), G. reflexivity.
    + cbn [and_then]. destruct (eq_int v 0); [reflexivity|].
      cbn [and_then]. rewrite (lt_int_zero_numeric v N), G. reflexivity.
Qed.

Lemma negative_then_zero_witness :
  (and_then (against_negative (VInt 3) "a") (fun w => against_zero w "b")
   = Return (VInt 3) <-> 0 < 3)
  /\ outcome_of
       (and_then (against_negative (VFloat (S754_zero true)) "a")
          (fun w => against_zero w "b"))
     = outcome_of
         (and_then (against_zero (VFloat (S754_zero true)) "b")
            (fun w => against_negative w "a")).
Proof.
  apply (negative_then_zero (VFloat (S754_zero true)) 3 "a" "b").
  reflexivity.
Defined.

Lemma truthy_not_empty (v : pyval) :
  truthy v = true ->
  is_none v = false /\ eq_int v 0 = false /\ eq_str v "" = false.
Proof.
  destruct v as [ |q|z|x|s|q|l|l|d|l|s|l];
    cbn [truthy is_none eq_int eq_str]; intros T;
    (split; [|split]); try reflexivity; try discriminate T.
  - subst q. reflexivity.
  - now apply negb_true_iff.
  - rewrite float_eq_int_zero. now apply negb_true_iff.
  - now apply negb_true_iff.
Qed.

(** X6: the empty-collection check is the strongest of the emptiness checks:
    a value it lets through is let through by [against_none], by
    [against_zero] and by [against_empty_string] as well. *)
Theorem against_empty_collection_strongest (v w : pyval) (n a b c : string) :
  against_empty_collection v n = Return w ->
  against_none v a = Return v
  /\ against_zero v b = Return v
  /\ against_empty_string v c = Return v.
Proof.
  unfold against_empty_collection, against_none, against_zero,
    against_empty_string.
  destruct (truthy v) eqn:T; [intros _ | discriminate].
  destruct (truthy_not_empty v T) as [N [Z S]].
  rewrite N, Z, S. repeat split.
Qed.

Lemma against_empty_collection_strongest_witness :
  against_none (VList [VInt 0]) "a" = Return (VList [VInt 0])
  /\ against_zero (VList [VInt 0]) "b" = Return (VList [VInt 0])
  /\ against_empty_string (VList [VInt 0]) "c" = Return (VList [VInt 0]).
Proof.
  apply (against_empty_collection_strongest
           (VList [VInt 0]) (VList [VInt 0]) "n" "a" "b" "c").
  reflexivity.
Defined.

(** X7: a check applied to its own result changes nothing: the second call,
    under whatever name, returns what the first returned, and a failure of
    the first is the failure of the whole. *)
Theorem check_twice
  (rt : runtime) (c : check) (v : pyval) (n1 n2 : option string) :
  and_then (call rt c v n1) (fun w => call rt c w n2) = call rt c v n1.
Proof.
  destruct (call rt c v n1) as [w|e] eqn:E; cbn [and_then]; [|reflexivity].
  assert (w = v) as -> by exact (call_returns_argument rt c v w n1 E).
  pose proof (call_outcome_ignores_name rt c v n2 n1) as O.
  rewrite E in O. destruct (call rt c v n2) as [u|e]; [|discriminate O].
  cbn [outcome_of] in O. now inversion O.
Qed.

(** X8: on a [list], [tuple], [dict] or [set], [against_not_iterable] alone
    returns the container even when it is empty; followed by
    [against_empty_collection] it returns the container exactly when it has
    at least one element, and fails with InvalidArgument otherwise. *)
Theorem iterable_then_nonempty (v : pyval) (a b : string) :
  container v = true ->
  against_not_iterable v a = Return v
  /\ (and_then (against_not_iterable v a) (fun w => against_empty_collection w b)
      = Return v <-> nonempty_container v = true)
  /\ (nonempty_container v = false ->
      fails_with
        (and_then (against_not_iterable v a)
           (fun w => against_empty_collection w b))
        ValueError).
Proof.
  intros C.
  assert (against_not_iterable v a = Return v) as R
    by (destruct v; try discriminate C; reflexivity).
  rewrite R. cbn [and_then]. unfold against_empty_collection.
  split; [reflexivity|].
  assert (truthy v = nonempty_container v) as ->
    by (destruct v as [ |q|z|x|s|q|l|l|d|l|s|l]; try discriminate C;
        [destruct l | destruct l | destruct d | destruct l]; reflexivity).
  destruct (nonempty_container v); cbn [negb]; split.
  - split; reflexivity.
  - discriminate.
  - split; discriminate.
  - intros _. now apply fails_with_raise.
Qed.

Lemma iterable_then_nonempty_witness :
  against_not_iterable (VSet []) "a" = Return (VSet [])
  /\ (and_then (against_not_iterable (VSet []) "a")
        (fun w => against_empty_collection w "b")
      = Return (VSet []) <-> nonempty_container (VSet []) = true)
  /\ (nonempty_container (VSet []) = false ->
      fails_with
        (and_then (against_not_iterable (VSet []) "a")
           (fun w => against_empty_collection w "b"))
        ValueError).
Proof.
  apply (iterable_then_nonempty (VSet []) "a" "b"). reflexivity.
Defined.

(* ------------------------------------------------------------------ *)
(** ** Messages *)

(** X9: every InvalidArgument failure, of whichever check, holds the name of
    the argument in its message (the name given, or the default of the
    signature), and so does every TypeMismatch failure except those the
    interpreter raises inside [against_negative] and
    [against_directory_not_found]. *)
Theorem own_messages_name_argument
  (rt : runtime) (c : check) (v : pyval) (name : option string)
  (k : exc_class) (msg : string) :
  call rt c v name = Raise (Exc k msg) ->
  k = ValueError
  \/ (k = TypeError /\ c <> AgainstNegative /\ c <> AgainstDirectoryNotFound) ->
  Text.within (name_of c name) msg.
Proof.
  intros E K.
  apply (own_failures_name_argument rt c v name k msg E).
  - destruct K as [->|[-> _]]; discriminate.
  - intros ->. destruct K as [->|[_ [N _]]]; [|now elim N].
    destruct (numeric v) eqn:N; [reflexivity|].
    cbn [call] in E. unfold against_negative in E.
    destruct v; try discriminate N; discriminate E.
  - intros ->. destruct K as [->|[_ [_ N]]]; [|now elim N].
    cbn [call] in E. unfold against_directory_not_found in E.
    destruct (path_isdir rt v) as [[|]|e] eqn:D; try discriminate E.
    injection E as ->.
    destruct (path_isdir_raises rt v _ D) as [X|X]; discriminate X.
Qed.

Lemma own_messages_name_argument_witness :
  Text.within "value" "Argument 'value' must not be zero."
  /\ Text.within "cfg"
       "Argument 'cfg' must be a valid file path (str, bytes, or os.PathLike).".
Proof.
  split.
  - apply (own_messages_name_argument
             Sample.rt AgainstZero (VInt 0) None ValueError _ eq_refl).
    left. reflexivity.
  - apply (own_messages_name_argument
             Sample.rt AgainstFileNotFound (VInt 3) (Some "cfg") TypeError _ eq_refl).
    right. repeat split; discriminate.
Defined.

(* ------------------------------------------------------------------ *)
(** ** Types *)

(** X10: [against_wrong_type] tests by [isinstance], not by the exact type:
    every value passes against its own type and against [object], a [bool]
    passes where an [int] is expected, and no [int] passes where a [bool]
    is. *)
Theorem against_wrong_type_by_instance (v : pyval) (b : bool) (n : Z) (name : string) :
  against_wrong_type v (type_of v) name = Return v
  /\ against_wrong_type v T_object name = Return v
  /\ against_wrong_type (VBool b) T_int name = Return (VBool b)
  /\ fails_with (against_wrong_type (VInt n) T_bool name) TypeError.
Proof.
  repeat split; try (destruct v; reflexivity).
  now eexists.
Qed.

(** X11: away from [str] and [bytes], [against_not_iterable] decides as
    [against_wrong_type] does for [Iterable]; a [str] or [bytes] value is an
    [Iterable] for [against_wrong_type] and a TypeMismatch for
    [against_not_iterable]. *)
Theorem against_not_iterable_vs_wrong_type (v : pyval) (a b : string) :
  outcome_of (against_not_iterable v a)
  = (if text_or_bytes v then Failed TypeError
     else outcome_of (against_wrong_type v T_Iterable b))
  /\ (text_or_bytes v = true -> against_wrong_type v T_Iterable b = Return v).
Proof.
  destruct v; split; try reflexivity; intros E; discriminate E.
Qed.

(* ------------------------------------------------------------------ *)
(** ** The file check and the filesystem *)

(** X12: [against_file_not_found] settles [None] and every value that is not
    path-like before it asks the filesystem: on such a value its result is
    the same on every filesystem, and an integer is never taken as a file
    descriptor. *)
Theorem against_file_not_found_filters_first
  (rt1 rt2 : runtime) (path : pyval) (name : string) :
  path_like path = false ->
  against_file_not_found rt1 path name = against_file_not_found rt2 path name
  /\ ~ fails_with (against_file_not_found rt1 path name) NotFound
  /\ (forall w, against_file_not_found rt1 path name <> Return w).
Proof.
  intros P. rewrite !against_file_not_found_cases, P. cbn [negb].
  destruct (is_none path); repeat split;
    try (intros [msg E]; discriminate E); try (intros w E; discriminate E).
Qed.

Lemma against_file_not_found_filters_first_witness :
  against_file_not_found Sample.rt (VInt 0) "p"
  = against_file_not_found
      {| stat_path := fun _ => Some RegularFile;
         stat_fd := fun _ => Some RegularFile;
         repr := fun _ => "" |} (VInt 0) "p"
  /\ ~ fails_with (against_file_not_found Sample.rt (VInt 0) "p") NotFound
  /\ (forall w, against_file_not_found Sample.rt (VInt 0) "p" <> Return w).
Proof.
  apply (against_file_not_found_filters_first Sample.rt _ (VInt 0) "p").
  reflexivity.
Defined.

(** X13: each failure of [against_file_not_found] tells its cause, and there
    is no fourth: InvalidArgument means the path is [None], TypeMismatch
    that it is another value that is not path-like, NotFound that it is
    path-like and resolves to nothing.  No exception of the filesystem query
    comes through. *)
Theorem against_file_not_found_failures
  (rt : runtime) (path : pyval) (name : string) (k : exc_class) (msg : string) :
  against_file_not_found rt path name = Raise (Exc k msg) ->
  (k = ValueError /\ path = VNone)
  \/ (k = TypeError /\ path <> VNone /\ path_like path = false)
  \/ (k = FileNotFoundError /\ path_like path = true /\ resolves rt path = None).
Proof.
  rewrite against_file_not_found_cases.
  destruct (is_none path) eqn:I.
  - intros E. apply raise_inv in E. destruct E as [<- _]. left.
    split; [reflexivity | destruct path; try discriminate I; reflexivity].
  - destruct (path_like path) eqn:P; cbn [negb].
    + destruct (resolves rt path) eqn:R; [discriminate|].
      intros E. apply raise_inv in E. destruct E as [<- _]. right. right.
      repeat split.
    + intros E. apply raise_inv in E. destruct E as [<- _]. right. left.
      repeat split. intros ->. discriminate I.
Qed.

Lemma against_file_not_found_failures_witness :
  (FileNotFoundError = ValueError /\ VStr "/missing" = VNone)
  \/ (FileNotFoundError = TypeError /\ VStr "/missing" <> VNone
      /\ path_like (VStr "/missing") = false)
  \/ (FileNotFoundError = FileNotFoundError /\ path_like (VStr "/missing") = true
      /\ resolves Sample.rt (VStr "/missing") = None).
Proof.
  apply (against_file_not_found_failures
           Sample.rt (VStr "/missing") "p" FileNotFoundError
           "File not found: '/missing'").
  reflexivity.
Defined.

(** X14: a text path with an embedded NUL character is not an error of its
    own: whatever the filesystem holds, both filesystem checks report it as
    NotFound. *)
Theorem nul_path_not_found (rt : runtime) (s name : string) :
  Text.has_nul s = true ->
  fails_with (against_file_not_found rt (VStr s) name) NotFound
  /\ fails_with (against_directory_not_found rt (VStr s) name) NotFound.
Proof.
  intros N. split.
  - rewrite against_file_not_found_cases. cbn [is_none path_like negb resolves].
    rewrite N. now apply fails_with_raise.
  - unfold against_directory_not_found, path_isdir, stat_test, os_stat.
    rewrite N. cbn. now apply fails_with_raise.
Qed.

Lemma nul_path_not_found_witness :
  fails_with
    (against_file_not_found Sample.rt (VStr (String Ascii.zero "/tmp")) "p")
    NotFound
  /\ fails_with
       (against_directory_not_found Sample.rt (VStr (String Ascii.zero "/tmp")) "p")
       NotFound.
Proof.
  apply (nul_path_not_found Sample.rt (String Ascii.zero "/tmp") "p").
  reflexivity.
Defined.

(** X15: [against_directory_not_found] hands an integer to the filesystem
    as a file descriptor: one that does not fit a C [int] leaves the check as
    an [OverflowError], which is none of the three failure kinds. *)
Theorem against_directory_not_found_overflow
  (rt : runtime) (n : Z) (name : string) :
  fd_in_range n = false ->
  outcome_of (against_directory_not_found rt (VInt n) name) = Failed OverflowError.
Proof.
  intros R. unfold against_directory_not_found, path_isdir, stat_test, os_stat.
  rewrite R. reflexivity.
Qed.

Lemma against_directory_not_found_overflow_witness :
  outcome_of (against_directory_not_found Sample.rt (VInt (2 ^ 100)) "d")
  = Failed OverflowError.
Proof.
  apply (against_directory_not_found_overflow Sample.rt (2 ^ 100) "d").
  reflexivity.
Defined.
